(** * AquaticHabitat: habitat suitability from water depth and velocity

    A shallow embedding of
    [landlab/components/aquatic_habitat/aquatic_habitat.py] and the
    properties of its three lookup/print routines and of [run_one_step].

    Modelling conventions.
    - A node field (a 1-D float array) is a [list Q]: float64 arithmetic is
      idealised as exact rational arithmetic, and values are compared with
      [==] (Qeq), [<=] and [<] of [Q]. Every entry of an array is a number:
      NaN and the infinities are outside the model, so a statement about
      "every grid" is about every grid of numbers, and a statement meant for
      the program at large names the range its depths lie in.
    - The grid's field store [at_node] is a finite map from field names to
      arrays; reading a field that is not there raises.
    - A method is a computation over the component: it returns a value or
      raises, leaves a final component, and emits a trace of events. An
      event is a call of one of the component's methods or one [print]. *)

From Stdlib Require Import QArith Qminmax Lqa.
From stdpp Require Import gmap strings list fin_maps.

Open Scope Q_scope.

(** ** Values, events and exceptions *)

(** The Python values that reach [print], a return or an argument here. *)
Inductive PyVal : Type :=
  | VNone
  | VStr (s : string)
  | VArr (a : list Q).

(** The methods of the class. *)
Inductive Method : Type :=
  | m_run_one_step
  | m_find_velocity_HSI
  | m_find_depth_HSI
  | m_find_CSI.

Inductive Event : Type :=
  | Call (m : Method)
  | Print (v : PyVal).

(** [FieldError]: a missing grid field; [ValueError]: raised by the array
    and interpolation libraries. *)
Inductive Exn : Type :=
  | FieldError (name : string)
  | ValueError.

Inductive Result (A : Type) : Type :=
  | Ok (a : A)
  | Raise (e : Exn).
Arguments Ok {A} a.
Arguments Raise {A} e.

(** ** The grid and the component *)

Record Grid : Type := mkGrid {
  number_of_nodes : nat;
  at_node : gmap string (list Q)
}.

(** [grid.zeros(at="node")] *)
Definition zeros (g : Grid) : list Q := replicate (number_of_nodes g) 0.

Record AquaticHabitat : Type := mkAquaticHabitat {
  _grid : Grid;
  _species : string;
  _method : string;
  _I : list Q;
  _dzdt : list Q
}.

(** The entries of [_info] that are not optional. *)
Definition required_fields : list string :=
  ["surface_water__depth"; "surface_water__velocity"]%string.

(** A keyword argument that has a default: left out, or given. The species
    and the method are strings here; a value of another type compares
    unequal to every string literal, as a string other than ['salmon'] and
    ['CSI'] does. *)
Inductive Arg (A : Type) : Type :=
  | Omitted
  | Given (a : A).
Arguments Omitted {A}.
Arguments Given {A} a.

Definition arg_or {A} (d : A) (a : Arg A) : A :=
  match a with Omitted => d | Given x => x end.

(** Modelled from the spec: the constructor of the base class [Component],
    the host framework's extension-point contract, which lives outside this
    component's module. It keeps the grid, and it refuses a grid that lacks
    a required input of [_info], raising the field error of the first one
    missing. *)
Definition Component_init (grid : Grid) : Result Grid :=
  match filter (fun name => at_node grid !! name = None) required_fields with
  | name :: _ => Raise (FieldError name)
  | [] => Ok grid
  end.

(** The component that holds [grid], a species and a method, with its two
    work arrays as lines 166-167 fill them. *)
Definition component_on (grid : Grid) (species method : string) : AquaticHabitat :=
  {| _grid := grid;
     _species := species;
     _method := method;
     _I := zeros grid;
     _dzdt := zeros grid |}.

(** [__init__(self, grid, species='salmon', method='HSI', D50=...)]: the
    base constructor first (line 159), then the stores of lines 163-167. *)
Definition __init__ (grid : Grid) (species method : Arg string)
  : Result AquaticHabitat :=
  match Component_init grid with
  | Raise e => Raise e
  | Ok grid' =>
      Ok (component_on grid' (arg_or "salmon"%string species)
                             (arg_or "HSI"%string method))
  end.

(** A grid keeps every node field at [number_of_nodes] entries, and a grid a
    component runs on holds the component's required inputs. *)
Definition wf_grid (g : Grid) : bool :=
  forallb (fun kv => Nat.eqb (length (snd kv)) (number_of_nodes g))
          (map_to_list (at_node g))
  && forallb (fun k => bool_decide (is_Some (at_node g !! k))) required_fields.

(** ** The monad of methods *)

Record Outcome (A : Type) : Type := mkOutcome {
  res : Result A;
  final : AquaticHabitat;
  trace : list Event
}.
Arguments mkOutcome {A} res final trace.
Arguments res {A} o.
Arguments final {A} o.
Arguments trace {A} o.

Definition M (A : Type) : Type := AquaticHabitat -> Outcome A.

Definition ret {A} (a : A) : M A := fun s => mkOutcome (Ok a) s [].

Definition bind {A B} (m : M A) (k : A -> M B) : M B := fun s =>
  let o := m s in
  match res o with
  | Ok a => let o' := k a (final o) in
            mkOutcome (res o') (final o') (trace o ++ trace o')
  | Raise e => mkOutcome (Raise e) (final o) (trace o)
  end.

Notation "'let*' x ':=' c1 'in' c2" := (bind c1 (fun x => c2))
  (at level 10, x name, c1 at level 100, c2 at level 200).
Notation "c1 '>>' c2" := (bind c1 (fun _ => c2))
  (at level 100, c2 at level 200, right associativity).

Definition raise {A} (e : Exn) : M A := fun s => mkOutcome (Raise e) s [].

Definition lift {A} (r : Result A) : M A :=
  match r with Ok a => ret a | Raise e => raise e end.

(** [self] *)
Definition self : M AquaticHabitat := fun s => mkOutcome (Ok s) s [].

(** The entry of a method. *)
Definition enter (m : Method) : M unit := fun s => mkOutcome (Ok tt) s [Call m].

(** [print(v)] *)
Definition print (v : PyVal) : M unit := fun s => mkOutcome (Ok tt) s [Print v].

(** [self._grid.at_node[name]] *)
Definition at_node_get (name : string) : M (list Q) := fun s =>
  match at_node (_grid s) !! name with
  | Some a => mkOutcome (Ok a) s []
  | None => mkOutcome (Raise (FieldError name)) s []
  end.

(** ** numpy: the product of two 1-D arrays *)

(** [a * b] with numpy's broadcasting of a one-element array. *)
Definition np_mul (a b : list Q) : Result (list Q) :=
  if Nat.eqb (length a) (length b) then Ok (zip_with Qmult a b)
  else if Nat.eqb (length a) 1 then Ok (map (Qmult (nth 0 a 0)) b)
  else if Nat.eqb (length b) 1 then Ok (map (fun x => x * nth 0 b 0) a)
  else Raise ValueError.

(** ** scipy: [interp1d(x, y, kind='linear')]

    Built with the defaults [bounds_error=None] and [fill_value=nan], the
    interpolator raises [ValueError] at a point outside [x[0], x[-1]]. The
    breakpoints of the one curve in this component are written in ascending
    order, so the constructor's sort leaves them in place. *)

Record Interp1d : Type := mkInterp1d { ix : list Q; iy : list Q }.

Definition interp1d (x y : list Q) : Result Interp1d :=
  if Nat.eqb (length x) (length y) && negb (Nat.eqb (length x) 0)
  then Ok (mkInterp1d x y)
  else Raise ValueError.

Definition Qlt_bool (a b : Q) : bool := negb (Qle_bool b a).

(** [numpy.searchsorted(x, v)]: the first index whose entry is not below
    [v], in an ascending [x]. *)
Fixpoint searchsorted (x : list Q) (v : Q) : nat :=
  match x with
  | [] => O
  | x0 :: r => if Qlt_bool x0 v then S (searchsorted r v) else O
  end.

(** [i.clip(lo, hi)] *)
Definition clip (i lo hi : nat) : nat := Nat.min (Nat.max i lo) hi.

(** The linear interpolant at one point: the slope of the segment the point
    falls in, applied from the segment's left end. *)
Definition call_linear (f : Interp1d) (x_new : Q) : Q :=
  let i := clip (searchsorted (ix f) x_new) 1 (length (ix f) - 1) in
  let lo := (i - 1)%nat in
  let hi := i in
  let x_lo := nth lo (ix f) 0 in
  let x_hi := nth hi (ix f) 0 in
  let y_lo := nth lo (iy f) 0 in
  let y_hi := nth hi (iy f) 0 in
  let slope := (y_hi - y_lo) / (x_hi - x_lo) in
  slope * (x_new - x_lo) + y_lo.

Definition below_bounds (f : Interp1d) (v : Q) : bool := Qlt_bool v (hd 0 (ix f)).
Definition above_bounds (f : Interp1d) (v : Q) : bool := Qlt_bool (List.last (ix f) 0) v.

(** Calling the interpolator on an array. *)
Definition interp_call (f : Interp1d) (x_new : list Q) : Result (list Q) :=
  if existsb (below_bounds f) x_new then Raise ValueError
  else if existsb (above_bounds f) x_new then Raise ValueError
  else Ok (map (call_linear f) x_new).

(** ** The methods of [AquaticHabitat] *)

Definition curve_depth : list Q := [0; 6.6; 13.1; 1000].
Definition curve_HSI : list Q := [0; 0; 1; 1].

Definition find_CSI (HSI : PyVal) : M PyVal :=
  enter m_find_CSI >>
  print (VStr "you have chosen CSI method") >>
  ret VNone.

Definition find_depth_HSI (species : string) : M PyVal :=
  enter m_find_depth_HSI >>
  if String.eqb species "salmon" then
    let* interpolation_function := lift (interp1d curve_depth curve_HSI) in
    let* depth := at_node_get "surface_water__depth" in
    let* depth_HSI := lift (interp_call interpolation_function depth) in
    print (VStr "The HSI for depth is:") >>
    print (VArr depth_HSI) >>
    ret VNone
  else ret VNone.

Definition find_velocity_HSI (species : string) : M PyVal :=
  enter m_find_velocity_HSI >>
  let* h := at_node_get "surface_water__depth" in
  let* v := at_node_get "surface_water__velocity" in
  if String.eqb species "salmon" then
    let* hsi := lift (np_mul v h) in
    print (VArr hsi) >>
    ret VNone
  else
    print (VStr "species not found") >>
    ret VNone.

Definition run_one_step (dt : Q) : M PyVal :=
  enter m_run_one_step >>
  let* s := self in
  let species := _species s in
  let* HSI := find_depth_HSI species in
  let* s' := self in
  if String.eqb (_method s') "CSI" then
    find_CSI HSI >>
    ret VNone
  else ret VNone.

(** ** Observations on a trace *)

Definition is_call (m : Method) (e : Event) : bool :=
  match e, m with
  | Call m_run_one_step, m_run_one_step
  | Call m_find_velocity_HSI, m_find_velocity_HSI
  | Call m_find_depth_HSI, m_find_depth_HSI
  | Call m_find_CSI, m_find_CSI => true
  | _, _ => false
  end.

(** Whether method [m] was entered. *)
Definition calls (m : Method) (tr : list Event) : bool := existsb (is_call m) tr.

(** What was printed, in order. *)
Fixpoint printed (tr : list Event) : list PyVal :=
  match tr with
  | [] => []
  | Print v :: r => v :: printed r
  | Call _ :: r => printed r
  end.

(** ** Example grids *)

Definition grid_of (depth velocity : list Q) : Grid :=
  {| number_of_nodes := length depth;
     at_node := <["surface_water__depth"%string := depth]>
                (<["surface_water__velocity"%string := velocity]> ∅) |}.

(** The values of the class docstring, on two nodes. *)
Definition docstring_grid : Grid := grid_of [12.87; 12.87] [2.57; 2.57].

Definition docstring_component : AquaticHabitat :=
  component_on docstring_grid "salmon" "HSI".

(** ** Predicates and abbreviations of the statements *)

(** A computation that hands back the component it was given. *)
Definition readonly {A} (m : M A) : Prop := forall s, final (m s) = s.

(** The interpolator [find_depth_HSI] builds. *)
Definition salmon_curve : Interp1d := mkInterp1d curve_depth curve_HSI.

(** A depth on the domain of the curve, and one off it. *)
Definition in_curve_range (d : Q) : Prop := 0 <= d <= 1000.
Definition off_curve_range (d : Q) : Prop := d < 0 \/ 1000 < d.

(** A normalised score. *)
Definition in_unit_interval (y : Q) : Prop := 0 <= y <= 1.

(** The message of [find_CSI], as events. *)
Definition CSI_events : list Event :=
  [Call m_find_CSI; Print (VStr "you have chosen CSI method")].

(** What [find_depth_HSI] does for salmon, by the depth field and the
    interpolator's answer. *)
Definition depth_HSI_outcome (s : AquaticHabitat) : Outcome PyVal :=
  match at_node (_grid s) !! "surface_water__depth"%string with
  | None =>
      mkOutcome (Raise (FieldError "surface_water__depth")) s [Call m_find_depth_HSI]
  | Some depth =>
      match interp_call salmon_curve depth with
      | Ok hsi =>
          mkOutcome (Ok VNone) s
            [Call m_find_depth_HSI; Print (VStr "The HSI for depth is:");
             Print (VArr hsi)]
      | Raise e => mkOutcome (Raise e) s [Call m_find_depth_HSI]
      end
  end.

(** A grid with one node below the curve, one on it and one above it, under
    a component set to the composite method. *)
Definition off_curve_grid : Grid := grid_of [-0.5; 5; 1200] [1; 1; 1].
Definition off_curve_component : AquaticHabitat :=
  component_on off_curve_grid "salmon" "CSI".

(** A shallow node and a deeper one. *)
Definition riffle_pool_grid : Grid := grid_of [7.5; 12.87] [2.57; 0.4].
Definition riffle_pool_component : AquaticHabitat :=
  component_on riffle_pool_grid "salmon" "HSI".

(** ** Further grids and components *)

(** A grid of two nodes that holds no field at all, as a grid is once its
    fields were deleted, and components that still hold it. *)
Definition bare_grid : Grid := {| number_of_nodes := 2; at_node := ∅ |}.
Definition fieldless_component : AquaticHabitat := component_on bare_grid "salmon" "HSI".
Definition fieldless_trout_component : AquaticHabitat :=
  component_on bare_grid "trout" "CSI".

(** A grid that holds water depths but no velocities. *)
Definition depth_only_grid : Grid :=
  {| number_of_nodes := 2;
     at_node := <["surface_water__depth"%string := [12.87; 12.87]]> ∅ |}.
Definition no_velocity_component : AquaticHabitat :=
  component_on depth_only_grid "salmon" "HSI".

(** The docstring's depths under still water, with an elevation field. *)
Definition still_water_grid : Grid :=
  {| number_of_nodes := 2;
     at_node := <["topographic__elevation"%string := [1; 2]]>
                (at_node (grid_of [12.87; 12.87] [0; 0])) |}.
Definition still_water_component : AquaticHabitat :=
  component_on still_water_grid "salmon" "HSI".

(** What a step reads of a component: the stored species, the stored method
    and the depth field of the grid. *)
Definition step_view (s : AquaticHabitat) : string * string * option (list Q) :=
  (_species s, _method s, at_node (_grid s) !! "surface_water__depth"%string).

(** Two steps in a row, as a driver loop runs them. *)
Definition two_steps (dt1 dt2 : Q) : M PyVal :=
  run_one_step dt1 >> run_one_step dt2.

(** * Lemmas *)

(** ** The monad: computation rules and the frame *)

Section Frame.

Lemma readonly_ret {A} (a : A) : readonly (ret a).
Proof. intros s; reflexivity. Qed.

Lemma readonly_raise {A} (e : Exn) : readonly (@raise A e).
Proof. intros s; reflexivity. Qed.

Lemma readonly_lift {A} (r : Result A) : readonly (lift r).
Proof. destruct r; [apply readonly_ret | apply readonly_raise]. Qed.

Lemma readonly_self : readonly self.
Proof. intros s; reflexivity. Qed.

Lemma readonly_enter m : readonly (enter m).
Proof. intros s; reflexivity. Qed.

Lemma readonly_print v : readonly (print v).
Proof. intros s; reflexivity. Qed.

Lemma readonly_at_node_get name : readonly (at_node_get name).
Proof. intros s; unfold at_node_get; destruct (_ !! _); reflexivity. Qed.

Lemma readonly_bind {A B} (m : M A) (k : A -> M B) :
  readonly m -> (forall a, readonly (k a)) -> readonly (bind m k).
Proof.
  intros Hm Hk s. unfold bind.
  destruct (res (m s)) as [a|e]; cbn.
  - rewrite Hk. apply Hm.
  - apply Hm.
Qed.

Lemma readonly_if {A} (b : bool) (m1 m2 : M A) :
  readonly m1 -> readonly m2 -> readonly (if b then m1 else m2).
Proof. destruct b; auto. Qed.

End Frame.

Create HintDb frame.
#[export] Hint Resolve readonly_ret readonly_raise readonly_lift readonly_self
  readonly_enter readonly_print readonly_at_node_get readonly_if : frame.

Ltac frame :=
  repeat first [ solve [auto with frame]
               | apply readonly_if
               | apply readonly_bind; [| intros ? ] ].

Lemma find_CSI_readonly HSI : readonly (find_CSI HSI).
Proof. unfold find_CSI. frame. Qed.

Lemma find_depth_HSI_readonly species : readonly (find_depth_HSI species).
Proof. unfold find_depth_HSI. frame. Qed.

Lemma find_velocity_HSI_readonly species : readonly (find_velocity_HSI species).
Proof. unfold find_velocity_HSI. frame. Qed.

Lemma run_one_step_readonly dt : readonly (run_one_step dt).
Proof.
  unfold run_one_step.
  repeat (apply readonly_bind; [auto with frame | intros ?]).
  - apply find_depth_HSI_readonly.
  - apply readonly_if; [| auto with frame].
    apply readonly_bind; [apply find_CSI_readonly | auto with frame].
Qed.

(** ** The salmon depth curve, point by point *)

Section SalmonCurve.

Lemma interp1d_salmon : interp1d curve_depth curve_HSI = Ok salmon_curve.
Proof. reflexivity. Qed.

Lemma Qlt_bool_true a b : Qlt_bool a b = true <-> a < b.
Proof.
  unfold Qlt_bool. rewrite negb_true_iff, <- not_true_iff_false, Qle_bool_iff.
  split; [apply Qnot_le_lt | apply Qlt_not_le].
Qed.

Lemma Qlt_bool_false a b : Qlt_bool a b = false <-> b <= a.
Proof.
  unfold Qlt_bool. rewrite negb_false_iff. apply Qle_bool_iff.
Qed.

Ltac curve_step d c :=
  destruct (Qlt_bool c d) eqn:?H;
  [ match goal with H : Qlt_bool c d = true |- _ => apply Qlt_bool_true in H end
  | match goal with H : Qlt_bool c d = false |- _ => apply Qlt_bool_false in H end ].

(** The three pieces of the curve. *)
Lemma call_linear_salmon_cases (d : Q) :
  0 <= d -> d <= 1000 ->
  (d <= 6.6 /\ call_linear salmon_curve d == 0)
  \/ (6.6 <= d <= 13.1
      /\ call_linear salmon_curve d == (d - 6.6) / (13.1 - 6.6))
  \/ (13.1 <= d /\ call_linear salmon_curve d == 1).
Proof.
  intros H0 H1.
  cbv [call_linear salmon_curve curve_depth curve_HSI ix iy searchsorted].
  curve_step d 0.
  - curve_step d 6.6.
    + curve_step d 13.1.
      * curve_step d 1000; [lra |].
        right; right. split; [lra |].
        cbv [length clip Nat.sub Nat.max Nat.min nth]. field.
      * right; left. split; [lra |].
        cbv [length clip Nat.sub Nat.max Nat.min nth]. field.
    + left. split; [lra |].
      cbv [length clip Nat.sub Nat.max Nat.min nth]. field.
  - left. split; [lra |].
    cbv [length clip Nat.sub Nat.max Nat.min nth]. field.
Qed.

(** The rising piece, with its division carried out. *)
Lemma rising_piece (d : Q) : (d - 6.6) / (13.1 - 6.6) == (d - 6.6) * (10 # 65).
Proof. field. Qed.

Lemma call_linear_salmon_piecewise (d : Q) :
  0 <= d -> d <= 1000 ->
  (d <= 6.6 -> call_linear salmon_curve d == 0)
  /\ (6.6 <= d <= 13.1 -> call_linear salmon_curve d == (d - 6.6) / (13.1 - 6.6))
  /\ (13.1 <= d -> call_linear salmon_curve d == 1).
Proof.
  intros H0 H1.
  destruct (call_linear_salmon_cases d H0 H1) as [[Hd Hy] | [[Hd Hy] | [Hd Hy]]];
    rewrite Hy; rewrite ?rising_piece; repeat split; intros; lra.
Qed.

Lemma call_linear_salmon_unit (d : Q) :
  0 <= d -> d <= 1000 -> 0 <= call_linear salmon_curve d <= 1.
Proof.
  intros H0 H1.
  destruct (call_linear_salmon_cases d H0 H1) as [[Hd Hy] | [[Hd Hy] | [Hd Hy]]];
    rewrite Hy; rewrite ?rising_piece; lra.
Qed.

Lemma call_linear_salmon_mono (d1 d2 : Q) :
  0 <= d1 -> d1 <= d2 -> d2 <= 1000 ->
  call_linear salmon_curve d1 <= call_linear salmon_curve d2.
Proof.
  intros H0 H12 H1.
  destruct (call_linear_salmon_cases d1) as [[Hd Hy] | [[Hd Hy] | [Hd Hy]]];
    [lra | lra | | |];
    (destruct (call_linear_salmon_cases d2) as [[Hd' Hy'] | [[Hd' Hy'] | [Hd' Hy']]];
     [lra | lra | | |]);
    rewrite Hy, Hy'; rewrite ?rising_piece; lra.
Qed.

End SalmonCurve.

(** ** The interpolator on an array *)

Section InterpCall.

Lemma below_bounds_salmon d : below_bounds salmon_curve d = true <-> d < 0.
Proof. apply Qlt_bool_true. Qed.

Lemma above_bounds_salmon d : above_bounds salmon_curve d = true <-> 1000 < d.
Proof. apply Qlt_bool_true. Qed.

Lemma interp_call_in_range (depth : list Q) :
  Forall in_curve_range depth ->
  interp_call salmon_curve depth = Ok (map (call_linear salmon_curve) depth).
Proof.
  intros Hall. unfold interp_call.
  destruct (existsb (below_bounds salmon_curve) depth) eqn:Hb.
  { apply existsb_exists in Hb as (d & Hin & Hd).
    apply below_bounds_salmon in Hd.
    rewrite Forall_forall in Hall. apply list_elem_of_In, Hall in Hin.
    destruct Hin. lra. }
  destruct (existsb (above_bounds salmon_curve) depth) eqn:Ha.
  { apply existsb_exists in Ha as (d & Hin & Hd).
    apply above_bounds_salmon in Hd.
    rewrite Forall_forall in Hall. apply list_elem_of_In, Hall in Hin.
    destruct Hin. lra. }
  reflexivity.
Qed.

Lemma interp_call_off_range (depth : list Q) :
  Exists off_curve_range depth ->
  interp_call salmon_curve depth = Raise ValueError.
Proof.
  intros Hex. unfold interp_call.
  destruct (existsb (below_bounds salmon_curve) depth) eqn:Hb; [reflexivity |].
  destruct (existsb (above_bounds salmon_curve) depth) eqn:Ha; [reflexivity |].
  exfalso. apply Exists_exists in Hex as (d & Hin & Hd).
  apply list_elem_of_In in Hin.
  destruct Hd as [Hd | Hd].
  - apply below_bounds_salmon in Hd.
    assert (existsb (below_bounds salmon_curve) depth = true) as E
      by (apply existsb_exists; eauto).
    congruence.
  - apply above_bounds_salmon in Hd.
    assert (existsb (above_bounds salmon_curve) depth = true) as E
      by (apply existsb_exists; eauto).
    congruence.
Qed.

(** An array the interpolator hands back came from depths all on the curve. *)
Lemma interp_call_ok_inv (depth hsi : list Q) :
  interp_call salmon_curve depth = Ok hsi ->
  Forall in_curve_range depth /\ hsi = map (call_linear salmon_curve) depth.
Proof.
  unfold interp_call.
  destruct (existsb (below_bounds salmon_curve) depth) eqn:Hb; [discriminate |].
  destruct (existsb (above_bounds salmon_curve) depth) eqn:Ha; [discriminate |].
  intros [= <-]. split; [| reflexivity].
  apply Forall_forall. intros d Hin. apply list_elem_of_In in Hin.
  split.
  - apply Qlt_bool_false.
    destruct (below_bounds salmon_curve d) eqn:E; [| exact E].
    assert (existsb (below_bounds salmon_curve) depth = true)
      by (apply existsb_exists; eauto). congruence.
  - apply Qlt_bool_false.
    destruct (above_bounds salmon_curve d) eqn:E; [| exact E].
    assert (existsb (above_bounds salmon_curve) depth = true)
      by (apply existsb_exists; eauto). congruence.
Qed.

End InterpCall.

(** ** Computation rules of the lookup routines *)

Section Rules.

Variable s : AquaticHabitat.

Lemma find_depth_HSI_salmon : find_depth_HSI "salmon" s = depth_HSI_outcome s.
Proof.
  unfold find_depth_HSI, depth_HSI_outcome, bind, at_node_get. cbn.
  destruct (at_node (_grid s) !! _) as [depth|]; cbn; [| reflexivity].
  destruct (interp_call _ depth); reflexivity.
Qed.

Lemma find_depth_HSI_other (species : string) :
  species <> "salmon"%string ->
  find_depth_HSI species s = mkOutcome (Ok VNone) s [Call m_find_depth_HSI].
Proof.
  intros Hne. unfold find_depth_HSI, bind. cbn.
  apply String.eqb_neq in Hne. rewrite Hne. reflexivity.
Qed.

Lemma find_CSI_outcome (HSI : PyVal) :
  find_CSI HSI s =
  mkOutcome (Ok VNone) s [Call m_find_CSI; Print (VStr "you have chosen CSI method")].
Proof. reflexivity. Qed.

End Rules.

(** ** Well-formed grids *)

Section WfGrid.

Variable g : Grid.
Hypothesis Hwf : wf_grid g = true.

Lemma wf_grid_length (name : string) (a : list Q) :
  at_node g !! name = Some a -> length a = number_of_nodes g.
Proof using Hwf.
  intros Hlook. unfold wf_grid in Hwf.
  apply andb_prop in Hwf as [Hlen _].
  rewrite forallb_forall in Hlen.
  apply elem_of_map_to_list, list_elem_of_In, Hlen in Hlook.
  cbn in Hlook. apply Nat.eqb_eq, Hlook.
Qed.

Lemma wf_grid_required (name : string) :
  In name required_fields -> exists a, at_node g !! name = Some a.
Proof using Hwf.
  intros Hin. unfold wf_grid in Hwf.
  apply andb_prop in Hwf as [_ Hreq].
  rewrite forallb_forall in Hreq.
  apply Hreq, bool_decide_eq_true in Hin. destruct Hin as [a Ha]. eauto.
Qed.

Lemma wf_grid_inputs :
  exists h v,
    at_node g !! "surface_water__depth"%string = Some h
    /\ at_node g !! "surface_water__velocity"%string = Some v
    /\ length h = number_of_nodes g /\ length v = number_of_nodes g.
Proof using Hwf.
  destruct (wf_grid_required "surface_water__depth") as [h Hh]; [cbn; auto |].
  destruct (wf_grid_required "surface_water__velocity") as [v Hv]; [cbn; auto |].
  exists h, v. repeat split; try assumption; eapply wf_grid_length; eassumption.
Qed.

End WfGrid.

(** ** Computation rules of the velocity routine and of the step *)

#[local] Arguments find_depth_HSI : simpl never.

Section StepRules.

Variable s : AquaticHabitat.

Lemma find_velocity_HSI_salmon (h v : list Q) :
  at_node (_grid s) !! "surface_water__depth"%string = Some h ->
  at_node (_grid s) !! "surface_water__velocity"%string = Some v ->
  length v = length h ->
  find_velocity_HSI "salmon" s =
  mkOutcome (Ok VNone) s [Call m_find_velocity_HSI; Print (VArr (zip_with Qmult v h))].
Proof.
  intros Hh Hv Hlen.
  unfold find_velocity_HSI, bind, at_node_get. cbn.
  rewrite Hh. cbn. rewrite Hv. cbn.
  unfold np_mul. rewrite Hlen, Nat.eqb_refl. reflexivity.
Qed.

Lemma find_velocity_HSI_other (species : string) (h v : list Q) :
  at_node (_grid s) !! "surface_water__depth"%string = Some h ->
  at_node (_grid s) !! "surface_water__velocity"%string = Some v ->
  species <> "salmon"%string ->
  find_velocity_HSI species s =
  mkOutcome (Ok VNone) s [Call m_find_velocity_HSI; Print (VStr "species not found")].
Proof.
  intros Hh Hv Hne.
  unfold find_velocity_HSI, bind, at_node_get. cbn.
  rewrite Hh. cbn. rewrite Hv. cbn.
  apply String.eqb_neq in Hne. rewrite Hne. reflexivity.
Qed.

(** [run_one_step] by the outcome of its depth lookup. *)
Lemma run_one_step_rule (dt : Q) :
  run_one_step dt s =
  let o := find_depth_HSI (_species s) s in
  match res o with
  | Ok HSI =>
      mkOutcome (Ok VNone) s
        (Call m_run_one_step :: trace o
         ++ (if String.eqb (_method s) "CSI" then CSI_events else []))
  | Raise e => mkOutcome (Raise e) s (Call m_run_one_step :: trace o)
  end.
Proof.
  unfold run_one_step, bind, self, enter. cbn.
  pose proof (find_depth_HSI_readonly (_species s) s) as Hfin.
  destruct (find_depth_HSI (_species s) s) as [r f tr]. cbn in *. subst f.
  destruct r as [HSI|e]; cbn; [| reflexivity].
  destruct (String.eqb (_method s) "CSI"); cbn; rewrite ?app_nil_r; reflexivity.
Qed.

(** The depth lookup never enters another method and never raises
    anything but what its field read or its interpolator raise. *)
Lemma find_depth_HSI_calls (species : string) (m : Method) :
  calls m (trace (find_depth_HSI species s)) = true -> m = m_find_depth_HSI.
Proof.
  destruct (String.eqb_spec species "salmon") as [-> | Hne].
  - rewrite find_depth_HSI_salmon. unfold depth_HSI_outcome.
    destruct (at_node (_grid s) !! _) as [depth|];
      [destruct (interp_call salmon_curve depth) |];
      destruct m; cbn; congruence.
  - rewrite find_depth_HSI_other by exact Hne. destruct m; cbn; congruence.
Qed.

Lemma find_depth_HSI_no_other_call (species : string) (m : Method) :
  m <> m_find_depth_HSI -> calls m (trace (find_depth_HSI species s)) = false.
Proof.
  intros Hm. destruct (calls m _) eqn:E; [| reflexivity].
  apply find_depth_HSI_calls in E. contradiction.
Qed.

(** The events of a step: its own entry, the events of the depth lookup,
    and those of [find_CSI] when it is reached. *)
Lemma run_one_step_trace (dt : Q) :
  trace (run_one_step dt s)
  = Call m_run_one_step
    :: trace (find_depth_HSI (_species s) s)
    ++ match res (find_depth_HSI (_species s) s) with
       | Ok _ => if String.eqb (_method s) "CSI" then CSI_events else []
       | Raise _ => []
       end.
Proof.
  rewrite run_one_step_rule. cbn zeta.
  destruct (res (find_depth_HSI (_species s) s)); cbn [trace];
    rewrite ?app_nil_r; reflexivity.
Qed.

End StepRules.

(** ** Arrays, entry by entry *)

Lemma lookup_map {A B} (f : A -> B) (l : list A) (i : nat) :
  map f l !! i = option_map f (l !! i).
Proof.
  revert i. induction l as [|a l IH]; intros [|i]; cbn; auto.
Qed.

Lemma printed_app (t1 t2 : list Event) : printed (t1 ++ t2) = printed t1 ++ printed t2.
Proof.
  induction t1 as [|[m|v] t1 IH]; cbn; [reflexivity | exact IH | now rewrite IH].
Qed.

Lemma calls_app (m : Method) (t1 t2 : list Event) :
  calls m (t1 ++ t2) = calls m t1 || calls m t2.
Proof. apply existsb_app. Qed.

(** * The properties *)

(** ** The frame of a step *)

(** C1: for every component, grid and time step, [run_one_step dt] ends in
    the state it started from: the field ['topographic__elevation'] and every
    other node field of the grid read the same before and after, whether the
    step returns or raises. *)
Theorem run_one_step_leaves_fields_unchanged (dt : Q) (s : AquaticHabitat) :
  final (run_one_step dt s) = s
  /\ at_node (_grid (final (run_one_step dt s))) !! "topographic__elevation"%string
     = at_node (_grid s) !! "topographic__elevation"%string
  /\ (forall name : string,
        at_node (_grid (final (run_one_step dt s))) !! name = at_node (_grid s) !! name)
  /\ number_of_nodes (_grid (final (run_one_step dt s))) = number_of_nodes (_grid s).
Proof.
  pose proof (run_one_step_readonly dt s) as ->. repeat split.
Qed.

(** C10: the time step is ignored: two steps from the same state with any
    two values of [dt] have the same result, the same printed output and
    the same final state. *)
Theorem run_one_step_ignores_dt (dt1 dt2 : Q) (s : AquaticHabitat) :
  run_one_step dt1 s = run_one_step dt2 s
  /\ printed (trace (run_one_step dt1 s)) = printed (trace (run_one_step dt2 s))
  /\ final (run_one_step dt1 s) = final (run_one_step dt2 s).
Proof.
  rewrite !run_one_step_rule. repeat split.
Qed.

(** ** The composite index *)

(** C8: [find_CSI] computes nothing: for every argument it prints its one
    fixed message, returns [None] and leaves the component and the grid as
    they were. *)
Theorem find_CSI_is_a_placeholder (HSI : PyVal) (s : AquaticHabitat) :
  res (find_CSI HSI s) = Ok VNone
  /\ printed (trace (find_CSI HSI s)) = [VStr "you have chosen CSI method"]
  /\ final (find_CSI HSI s) = s
  /\ find_CSI HSI s = find_CSI VNone s.
Proof. repeat split. Qed.

(** ** The depth curve *)

(** C2: for salmon, on a grid whose depths all lie in [0, 1000],
    [find_depth_HSI] prints one array with an entry per node, and the entry
    of a node of depth [d] is 0 when [d <= 6.6], [(d - 6.6) / (13.1 - 6.6)]
    when [6.6 <= d <= 13.1], and 1 when [13.1 <= d]. *)
Theorem find_depth_HSI_salmon_piecewise (s : AquaticHabitat) (depth : list Q) :
  at_node (_grid s) !! "surface_water__depth"%string = Some depth ->
  Forall in_curve_range depth ->
  exists hsi : list Q,
    find_depth_HSI "salmon" s
    = mkOutcome (Ok VNone) s
        [Call m_find_depth_HSI; Print (VStr "The HSI for depth is:"); Print (VArr hsi)]
    /\ length hsi = length depth
    /\ forall (i : nat) (d : Q), depth !! i = Some d ->
       exists y : Q, hsi !! i = Some y
         /\ (d <= 6.6 -> y == 0)
         /\ (6.6 <= d <= 13.1 -> y == (d - 6.6) / (13.1 - 6.6))
         /\ (13.1 <= d -> y == 1).
Proof.
  intros Hdepth Hall.
  exists (map (call_linear salmon_curve) depth). split; [| split].
  - rewrite find_depth_HSI_salmon. unfold depth_HSI_outcome.
    rewrite Hdepth, interp_call_in_range by exact Hall. reflexivity.
  - apply length_map.
  - intros i d Hi. exists (call_linear salmon_curve d). split.
    + rewrite lookup_map, Hi. reflexivity.
    + rewrite Forall_forall in Hall.
      destruct (Hall d) as [H0 H1]; [eapply list_elem_of_lookup_2; eauto |].
      apply call_linear_salmon_piecewise; assumption.
Qed.

Lemma find_depth_HSI_salmon_piecewise_witness :
  at_node (_grid docstring_component) !! "surface_water__depth"%string
  = Some [12.87; 12.87]
  /\ Forall in_curve_range [12.87; 12.87]
  /\ exists hsi : list Q,
    find_depth_HSI "salmon" docstring_component
    = mkOutcome (Ok VNone) docstring_component
        [Call m_find_depth_HSI; Print (VStr "The HSI for depth is:"); Print (VArr hsi)]
    /\ length hsi = length [12.87; 12.87]
    /\ forall (i : nat) (d : Q), [12.87; 12.87] !! i = Some d ->
       exists y : Q, hsi !! i = Some y
         /\ (d <= 6.6 -> y == 0)
         /\ (6.6 <= d <= 13.1 -> y == (d - 6.6) / (13.1 - 6.6))
         /\ (13.1 <= d -> y == 1).
Proof.
  assert (Forall in_curve_range [12.87; 12.87]) as Hall
    by (repeat constructor; vm_compute; discriminate).
  split; [reflexivity | split; [exact Hall |]].
  apply (find_depth_HSI_salmon_piecewise docstring_component [12.87; 12.87]);
    [reflexivity | exact Hall].
Defined.

(** C3, as the code has it: the depth lookup does not clamp. For salmon, as
    soon as one node's depth lies outside [0, 1000] the interpolator raises
    [ValueError]; [find_depth_HSI] raises with it, prints nothing and gives
    no node an HSI. *)
Theorem find_depth_HSI_off_curve_raises (s : AquaticHabitat) (depth : list Q) :
  at_node (_grid s) !! "surface_water__depth"%string = Some depth ->
  Exists off_curve_range depth ->
  find_depth_HSI "salmon" s = mkOutcome (Raise ValueError) s [Call m_find_depth_HSI]
  /\ printed (trace (find_depth_HSI "salmon" s)) = [].
Proof.
  intros Hdepth Hex.
  rewrite find_depth_HSI_salmon. unfold depth_HSI_outcome.
  rewrite Hdepth, interp_call_off_range by exact Hex. split; reflexivity.
Qed.

Lemma find_depth_HSI_off_curve_raises_witness :
  at_node (_grid off_curve_component) !! "surface_water__depth"%string
  = Some [-0.5; 5; 1200]
  /\ Exists off_curve_range [-0.5; 5; 1200]
  /\ find_depth_HSI "salmon" off_curve_component
     = mkOutcome (Raise ValueError) off_curve_component [Call m_find_depth_HSI]
  /\ printed (trace (find_depth_HSI "salmon" off_curve_component)) = [].
Proof.
  assert (Exists off_curve_range [-0.5; 5; 1200]) as Hex
    by (apply Exists_cons_hd; left; reflexivity).
  split; [reflexivity | split; [exact Hex |]].
  apply (find_depth_HSI_off_curve_raises off_curve_component [-0.5; 5; 1200]);
    [reflexivity | exact Hex].
Defined.

(** C3, against the claim: on depths -0.5, 5 and 1200 the lookup does not
    succeed with the end values 0 and 1 at the first and last node; it
    raises [ValueError] and prints no array at all. *)
Lemma find_depth_HSI_does_not_clamp :
  at_node (_grid off_curve_component) !! "surface_water__depth"%string
  = Some [-0.5; 5; 1200]
  /\ res (find_depth_HSI "salmon" off_curve_component) = Raise ValueError
  /\ ~ (exists hsi : list Q,
          res (find_depth_HSI "salmon" off_curve_component) = Ok VNone
          /\ In (VArr hsi) (printed (trace (find_depth_HSI "salmon" off_curve_component)))
          /\ hsi !! 0%nat = Some 0 /\ hsi !! 2%nat = Some 1).
Proof.
  split; [reflexivity | split; [reflexivity |]].
  intros (hsi & Hres & _). vm_compute in Hres. discriminate Hres.
Qed.

(** ** The unit interval *)

(** C4, as the code has it: on a grid whose depths all lie in [0, 1000],
    every entry of an array that [find_depth_HSI] prints lies in [0, 1],
    whatever the species; and for salmon it prints one, with an entry per
    node. *)
Theorem find_depth_HSI_in_unit_interval
    (species : string) (s : AquaticHabitat) (depth : list Q) :
  at_node (_grid s) !! "surface_water__depth"%string = Some depth ->
  Forall in_curve_range depth ->
  (forall hsi : list Q,
     In (VArr hsi) (printed (trace (find_depth_HSI species s))) ->
     Forall in_unit_interval hsi)
  /\ (species = "salmon"%string ->
      exists hsi : list Q,
        printed (trace (find_depth_HSI species s))
        = [VStr "The HSI for depth is:"; VArr hsi]
        /\ length hsi = length depth
        /\ Forall in_unit_interval hsi).
Proof.
  intros Hdepth Hall.
  assert (Forall in_unit_interval (map (call_linear salmon_curve) depth)) as Hunit.
  { rewrite Forall_forall in Hall |- *.
    intros y Hy. apply list_elem_of_In, in_map_iff in Hy as (d & <- & Hd).
    apply list_elem_of_In, Hall in Hd. destruct Hd.
    apply call_linear_salmon_unit; assumption. }
  destruct (String.eqb_spec species "salmon") as [-> | Hne].
  - rewrite find_depth_HSI_salmon. unfold depth_HSI_outcome.
    rewrite Hdepth, interp_call_in_range by exact Hall. cbn [trace printed]. split.
    + intros hsi [Hstr | [[= <-] | []]]; [discriminate Hstr | exact Hunit].
    + intros _. eexists. split; [reflexivity |]. split; [apply length_map | exact Hunit].
  - rewrite find_depth_HSI_other by exact Hne. cbn. split; [tauto | contradiction].
Qed.

Lemma find_depth_HSI_in_unit_interval_witness :
  at_node (_grid docstring_component) !! "surface_water__depth"%string
  = Some [12.87; 12.87]
  /\ Forall in_curve_range [12.87; 12.87]
  /\ (forall hsi : list Q,
        In (VArr hsi) (printed (trace (find_depth_HSI "salmon" docstring_component))) ->
        Forall in_unit_interval hsi)
  /\ ("salmon"%string = "salmon"%string ->
      exists hsi : list Q,
        printed (trace (find_depth_HSI "salmon" docstring_component))
        = [VStr "The HSI for depth is:"; VArr hsi]
        /\ length hsi = length [12.87; 12.87]
        /\ Forall in_unit_interval hsi).
Proof.
  assert (Forall in_curve_range [12.87; 12.87]) as Hall
    by (repeat constructor; vm_compute; discriminate).
  split; [reflexivity | split; [exact Hall |]].
  apply (find_depth_HSI_in_unit_interval "salmon" docstring_component [12.87; 12.87]);
    [reflexivity | exact Hall].
Defined.

(** C4, against the claim: with the depth 12.87 and the velocity 2.57 of
    the class docstring, [find_velocity_HSI] prints the product 33.0759 at
    every node, which is above 1. *)
Lemma find_velocity_HSI_exceeds_one :
  printed (trace (find_velocity_HSI "salmon" docstring_component))
  = [VArr [33.0759; 33.0759]]
  /\ ~ in_unit_interval 33.0759.
Proof.
  split; [reflexivity |].
  intros [_ H]. vm_compute in H. apply H. reflexivity.
Qed.

(** ** The velocity routine *)

(** C5: for salmon, on a well-formed grid, [find_velocity_HSI] prints one
    array, the product of the velocity field and the depth field node by
    node, and nothing else; and no step enters [find_velocity_HSI], whatever
    the stored species and method. *)
Theorem find_velocity_HSI_is_product_and_unused (s : AquaticHabitat) :
  wf_grid (_grid s) = true ->
  (exists h v : list Q,
     at_node (_grid s) !! "surface_water__depth"%string = Some h
     /\ at_node (_grid s) !! "surface_water__velocity"%string = Some v
     /\ find_velocity_HSI "salmon" s
        = mkOutcome (Ok VNone) s
            [Call m_find_velocity_HSI; Print (VArr (zip_with Qmult v h))]
     /\ forall i : nat, (i < number_of_nodes (_grid s))%nat ->
        exists vi hi : Q,
          v !! i = Some vi /\ h !! i = Some hi
          /\ zip_with Qmult v h !! i = Some (vi * hi))
  /\ (forall (dt : Q) (s' : AquaticHabitat),
        calls m_find_velocity_HSI (trace (run_one_step dt s')) = false).
Proof.
  intros Hwf. split.
  - destruct (wf_grid_inputs _ Hwf) as (h & v & Hh & Hv & Hlh & Hlv).
    exists h, v. repeat split; try assumption.
    + apply find_velocity_HSI_salmon; congruence.
    + intros i Hi.
      destruct (lookup_lt_is_Some_2 v i) as [vi Hvi]; [lia |].
      destruct (lookup_lt_is_Some_2 h i) as [hi Hhi]; [lia |].
      exists vi, hi. repeat split; try assumption.
      rewrite lookup_zip_with, Hvi, Hhi. reflexivity.
  - intros dt s'. rewrite run_one_step_trace.
    change (calls m_find_velocity_HSI (?e :: ?t))
      with (is_call m_find_velocity_HSI e || calls m_find_velocity_HSI t).
    rewrite calls_app, find_depth_HSI_no_other_call by discriminate.
    destruct (res (find_depth_HSI (_species s') s')); [| reflexivity].
    destruct (String.eqb (_method s') "CSI"); reflexivity.
Qed.

Lemma find_velocity_HSI_is_product_and_unused_witness :
  wf_grid (_grid docstring_component) = true
  /\ find_velocity_HSI "salmon" docstring_component
     = mkOutcome (Ok VNone) docstring_component
         [Call m_find_velocity_HSI; Print (VArr [2.57 * 12.87; 2.57 * 12.87])]
  /\ calls m_find_velocity_HSI (trace (run_one_step 10 docstring_component)) = false.
Proof.
  split; [reflexivity |].
  destruct (find_velocity_HSI_is_product_and_unused docstring_component)
    as [(h & v & Hh & Hv & Hrun & _) Hunused]; [reflexivity |].
  split; [| apply Hunused].
  vm_compute in Hh, Hv. injection Hh as <-. injection Hv as <-. exact Hrun.
Defined.

(** ** An unknown species *)

(** C6, at the species ['trout']: [find_depth_HSI] returns [None] having
    printed nothing and changed nothing, on every grid; on the docstring
    grid its sibling [find_velocity_HSI] prints ['species not found']. *)
Theorem find_depth_HSI_trout_prints_nothing (s : AquaticHabitat) :
  find_depth_HSI "trout" s = mkOutcome (Ok VNone) s [Call m_find_depth_HSI]
  /\ printed (trace (find_depth_HSI "trout" s)) = []
  /\ printed (trace (find_velocity_HSI "trout" docstring_component))
     = [VStr "species not found"].
Proof. repeat split. Qed.

(** ** The dispatch of a step *)

(** C7, as the code has it: for every [dt] a step enters [run_one_step],
    performs the depth lookup for the stored species, and then enters
    [find_CSI] exactly when the lookup returned and the stored method is
    ['CSI']; an exception of the lookup ends the step with that exception;
    in every case the final state is the initial one. *)
Theorem run_one_step_dispatch (dt : Q) (s : AquaticHabitat) :
  (exists rest : list Event,
     trace (run_one_step dt s)
     = Call m_run_one_step :: trace (find_depth_HSI (_species s) s) ++ rest
     /\ (rest = trace (find_CSI VNone s) \/ rest = []))
  /\ (calls m_find_CSI (trace (run_one_step dt s)) = true
      <-> _method s = "CSI"%string
          /\ exists v, res (find_depth_HSI (_species s) s) = Ok v)
  /\ (forall e : Exn, res (find_depth_HSI (_species s) s) = Raise e ->
        res (run_one_step dt s) = Raise e)
  /\ final (run_one_step dt s) = s.
Proof.
  pose proof (run_one_step_trace s dt) as Htr.
  pose proof (find_depth_HSI_no_other_call s (_species s) m_find_CSI) as Hno.
  specialize (Hno ltac:(discriminate)).
  assert (calls m_find_CSI (trace (run_one_step dt s))
          = match res (find_depth_HSI (_species s) s) with
            | Ok _ => String.eqb (_method s) "CSI"
            | Raise _ => false
            end) as Hcalls.
  { rewrite Htr. change (calls m_find_CSI (?e :: ?t)) with (is_call m_find_CSI e || calls m_find_CSI t).
    rewrite calls_app, Hno. cbn [is_call orb].
    destruct (res (find_depth_HSI (_species s) s)); [| reflexivity].
    destruct (String.eqb (_method s) "CSI"); reflexivity. }
  split; [| split; [| split]].
  - eexists. split; [exact Htr |].
    destruct (res (find_depth_HSI (_species s) s)); [| right; reflexivity].
    destruct (String.eqb (_method s) "CSI"); [left | right]; reflexivity.
  - rewrite Hcalls. split.
    + destruct (res (find_depth_HSI (_species s) s)) as [v|e]; [| discriminate].
      intros Hm. apply String.eqb_eq in Hm. eauto.
    + intros [Hm [v Hv]]. rewrite Hv. apply String.eqb_eq, Hm.
  - intros e He. rewrite run_one_step_rule. cbn zeta. rewrite He. reflexivity.
  - apply run_one_step_readonly.
Qed.

(** C7, against the claim: with the method ['CSI'] stored and a depth off
    the curve, the lookup raises and the step ends without entering
    [find_CSI]. *)
Lemma run_one_step_CSI_not_reached :
  _method off_curve_component = "CSI"%string
  /\ res (run_one_step 10 off_curve_component) = Raise ValueError
  /\ calls m_find_CSI (trace (run_one_step 10 off_curve_component)) = false.
Proof. repeat split. Qed.

(** ** Monotonicity of the depth curve *)


(** C9: for salmon, the HSI does not decrease with depth on [0, 1000]: take
    any two lookups on grids whose depths all lie on the curve, a node of
    depth [d1] in the first and a node of depth [d2] in the second; if
    [d1 <= d2] then the HSI printed for the first node is at most the HSI
    printed for the second. *)
Theorem find_depth_HSI_monotone
    (s1 s2 : AquaticHabitat) (depth1 depth2 : list Q) :
  at_node (_grid s1) !! "surface_water__depth"%string = Some depth1 ->
  at_node (_grid s2) !! "surface_water__depth"%string = Some depth2 ->
  Forall in_curve_range depth1 ->
  Forall in_curve_range depth2 ->
  exists hsi1 hsi2 : list Q,
    printed (trace (find_depth_HSI "salmon" s1))
    = [VStr "The HSI for depth is:"; VArr hsi1]
    /\ printed (trace (find_depth_HSI "salmon" s2))
       = [VStr "The HSI for depth is:"; VArr hsi2]
    /\ forall (i j : nat) (d1 d2 : Q),
         depth1 !! i = Some d1 -> depth2 !! j = Some d2 -> d1 <= d2 ->
         exists y1 y2 : Q,
           hsi1 !! i = Some y1 /\ hsi2 !! j = Some y2 /\ y1 <= y2.
Proof.
  intros H1 H2 Hall1 Hall2.
  exists (map (call_linear salmon_curve) depth1), (map (call_linear salmon_curve) depth2).
  rewrite !find_depth_HSI_salmon. unfold depth_HSI_outcome.
  rewrite H1, H2, !interp_call_in_range by assumption.
  split; [reflexivity | split; [reflexivity |]].
  intros i j d1 d2 Hi Hj Hle.
  exists (call_linear salmon_curve d1), (call_linear salmon_curve d2).
  rewrite !lookup_map, Hi, Hj. split; [reflexivity | split; [reflexivity |]].
  rewrite Forall_forall in Hall1, Hall2.
  destruct (Hall1 d1) as [Hlo _]; [eapply list_elem_of_lookup_2; eauto |].
  destruct (Hall2 d2) as [_ Hhi]; [eapply list_elem_of_lookup_2; eauto |].
  apply call_linear_salmon_mono; assumption.
Qed.

Lemma find_depth_HSI_monotone_witness :
  at_node (_grid riffle_pool_component) !! "surface_water__depth"%string
  = Some [7.5; 12.87]
  /\ Forall in_curve_range [7.5; 12.87]
  /\ exists hsi1 hsi2 : list Q,
    printed (trace (find_depth_HSI "salmon" riffle_pool_component))
    = [VStr "The HSI for depth is:"; VArr hsi1]
    /\ printed (trace (find_depth_HSI "salmon" riffle_pool_component))
       = [VStr "The HSI for depth is:"; VArr hsi2]
    /\ forall (i j : nat) (d1 d2 : Q),
         [7.5; 12.87] !! i = Some d1 -> [7.5; 12.87] !! j = Some d2 -> d1 <= d2 ->
         exists y1 y2 : Q,
           hsi1 !! i = Some y1 /\ hsi2 !! j = Some y2 /\ y1 <= y2.
Proof.
  assert (Forall in_curve_range [7.5; 12.87]) as Hall
    by (repeat constructor; vm_compute; discriminate).
  split; [reflexivity | split; [exact Hall |]].
  apply (find_depth_HSI_monotone riffle_pool_component riffle_pool_component
           [7.5; 12.87] [7.5; 12.87]);
    [reflexivity | reflexivity | exact Hall | exact Hall].
Defined.

(** * Further properties of the methods *)

(** ** Missing fields *)

Lemma find_depth_HSI_view (species : string) (s1 s2 : AquaticHabitat) :
  at_node (_grid s1) !! "surface_water__depth"%string
  = at_node (_grid s2) !! "surface_water__depth"%string ->
  res (find_depth_HSI species s1) = res (find_depth_HSI species s2)
  /\ trace (find_depth_HSI species s1) = trace (find_depth_HSI species s2).
Proof.
  intros Hd. destruct (String.eqb_spec species "salmon") as [-> | Hne].
  - rewrite !find_depth_HSI_salmon. unfold depth_HSI_outcome. rewrite Hd.
    destruct (at_node (_grid s2) !! _) as [depth|]; [| split; reflexivity].
    destruct (interp_call salmon_curve depth); split; reflexivity.
  - rewrite !find_depth_HSI_other by exact Hne. split; reflexivity.
Qed.

(** X1: on a grid without the field ['surface_water__depth'], the salmon
    depth lookup raises the field error of that name and prints nothing, and
    a step of a salmon component ends with the same error right after
    entering the lookup. *)
Theorem missing_depth_field_raises (dt : Q) (s : AquaticHabitat) :
  at_node (_grid s) !! "surface_water__depth"%string = None ->
  find_depth_HSI "salmon" s
  = mkOutcome (Raise (FieldError "surface_water__depth")) s [Call m_find_depth_HSI]
  /\ (_species s = "salmon"%string ->
      run_one_step dt s
      = mkOutcome (Raise (FieldError "surface_water__depth")) s
          [Call m_run_one_step; Call m_find_depth_HSI]).
Proof.
  intros Hnone.
  assert (find_depth_HSI "salmon" s
          = mkOutcome (Raise (FieldError "surface_water__depth")) s
              [Call m_find_depth_HSI]) as Hlook.
  { rewrite find_depth_HSI_salmon. unfold depth_HSI_outcome. rewrite Hnone. reflexivity. }
  split; [exact Hlook |].
  intros Hsp. rewrite run_one_step_rule, Hsp, Hlook. reflexivity.
Qed.

Lemma missing_depth_field_raises_witness :
  at_node (_grid fieldless_component) !! "surface_water__depth"%string = None
  /\ run_one_step 10 fieldless_component
     = mkOutcome (Raise (FieldError "surface_water__depth")) fieldless_component
         [Call m_run_one_step; Call m_find_depth_HSI].
Proof.
  split; [reflexivity |].
  apply (missing_depth_field_raises 10 fieldless_component); reflexivity.
Defined.

(** X2: [find_velocity_HSI] reads both fields before it looks at the
    species. When a required field is missing it raises the field error of
    the first one missing, depth before velocity, and prints nothing, not
    even ['species not found'] for an unknown species. *)
Theorem find_velocity_HSI_missing_field (species : string) (s : AquaticHabitat) :
  at_node (_grid s) !! "surface_water__depth"%string = None
  \/ at_node (_grid s) !! "surface_water__velocity"%string = None ->
  exists name : string,
    In name required_fields
    /\ at_node (_grid s) !! name = None
    /\ find_velocity_HSI species s
       = mkOutcome (Raise (FieldError name)) s [Call m_find_velocity_HSI]
    /\ (at_node (_grid s) !! "surface_water__depth"%string = None ->
        name = "surface_water__depth"%string).
Proof.
  intros Hmiss.
  destruct (at_node (_grid s) !! "surface_water__depth"%string) as [h|] eqn:Hh.
  - destruct Hmiss as [Hmiss | Hv]; [discriminate Hmiss |].
    exists "surface_water__velocity"%string. repeat split.
    + cbn. auto.
    + exact Hv.
    + unfold find_velocity_HSI, bind, at_node_get. cbn. rewrite Hh. cbn.
      rewrite Hv. reflexivity.
    + discriminate.
  - exists "surface_water__depth"%string. repeat split.
    + cbn. auto.
    + exact Hh.
    + unfold find_velocity_HSI, bind, at_node_get. cbn. rewrite Hh. reflexivity.
Qed.

Lemma find_velocity_HSI_missing_field_witness :
  (at_node (_grid no_velocity_component) !! "surface_water__depth"%string
   = None
   \/ at_node (_grid no_velocity_component)
        !! "surface_water__velocity"%string = None)
  /\ exists name : string,
       In name required_fields
       /\ at_node (_grid no_velocity_component) !! name = None
       /\ find_velocity_HSI "trout" no_velocity_component
          = mkOutcome (Raise (FieldError name))
              no_velocity_component [Call m_find_velocity_HSI]
       /\ (at_node (_grid no_velocity_component)
             !! "surface_water__depth"%string = None ->
           name = "surface_water__depth"%string).
Proof.
  assert (at_node (_grid no_velocity_component)
            !! "surface_water__depth"%string = None
          \/ at_node (_grid no_velocity_component)
               !! "surface_water__velocity"%string = None) as Hmiss
    by (right; reflexivity).
  split; [exact Hmiss |].
  exact (find_velocity_HSI_missing_field "trout"
           no_velocity_component Hmiss).
Defined.

(** ** A step of an unknown species *)

(** X3: a step of a component whose species is not ['salmon'] never raises,
    whatever the grid holds: it enters the depth lookup, which prints
    nothing, then prints the message of [find_CSI] when the method is
    ['CSI'], and returns [None]. *)
Theorem run_one_step_unknown_species (dt : Q) (s : AquaticHabitat) :
  _species s <> "salmon"%string ->
  run_one_step dt s
  = mkOutcome (Ok VNone) s
      (Call m_run_one_step :: Call m_find_depth_HSI
       :: (if String.eqb (_method s) "CSI" then CSI_events else [])).
Proof.
  intros Hne. rewrite run_one_step_rule.
  rewrite find_depth_HSI_other by exact Hne. reflexivity.
Qed.

Lemma run_one_step_unknown_species_witness :
  _species fieldless_trout_component
  <> "salmon"%string
  /\ run_one_step 10 fieldless_trout_component
     = mkOutcome (Ok VNone)
         fieldless_trout_component
         [Call m_run_one_step; Call m_find_depth_HSI; Call m_find_CSI;
          Print (VStr "you have chosen CSI method")].
Proof.
  assert (_species fieldless_trout_component
          <> "salmon"%string) as Hne by discriminate.
  split; [exact Hne |].
  apply (run_one_step_unknown_species 10
           fieldless_trout_component Hne).
Defined.

(** ** What the depth lookup hands back *)



(** ** What a step prints *)

Lemma find_depth_HSI_printed (species : string) (s : AquaticHabitat) :
  printed (trace (find_depth_HSI species s)) = []
  \/ exists depth hsi : list Q,
       at_node (_grid s) !! "surface_water__depth"%string = Some depth
       /\ length hsi = length depth
       /\ printed (trace (find_depth_HSI species s))
          = [VStr "The HSI for depth is:"; VArr hsi].
Proof.
  destruct (String.eqb_spec species "salmon") as [-> | Hne].
  - rewrite find_depth_HSI_salmon. unfold depth_HSI_outcome.
    destruct (at_node (_grid s) !! _) as [depth|]; [| left; reflexivity].
    destruct (interp_call salmon_curve depth) as [hsi|e] eqn:Hcall;
      [| left; reflexivity].
    right. exists depth, hsi. repeat split.
    apply interp_call_ok_inv in Hcall as [_ ->]. apply length_map.
  - rewrite find_depth_HSI_other by exact Hne. left; reflexivity.
Qed.

(** X5: whatever the component and the grid, a step prints one of four
    things: nothing; the message of [find_CSI] alone; the header and one
    array; or the header, one array and the message. An array it prints has
    one entry per entry of the depth field, and the message is printed only
    under the method ['CSI'] and only by a step that returns. *)
Theorem run_one_step_output_shape (dt : Q) (s : AquaticHabitat) :
  exists lookup_part tail : list PyVal,
    printed (trace (run_one_step dt s)) = lookup_part ++ tail
    /\ (lookup_part = []
        \/ exists depth hsi : list Q,
             at_node (_grid s) !! "surface_water__depth"%string = Some depth
             /\ length hsi = length depth
             /\ lookup_part = [VStr "The HSI for depth is:"; VArr hsi])
    /\ (tail = []
        \/ tail = [VStr "you have chosen CSI method"]
           /\ _method s = "CSI"%string
           /\ res (run_one_step dt s) = Ok VNone).
Proof.
  exists (printed (trace (find_depth_HSI (_species s) s))).
  rewrite run_one_step_trace, run_one_step_rule. cbn zeta.
  change (printed (Call m_run_one_step :: ?t)) with (printed t).
  rewrite printed_app.
  eexists. split; [reflexivity |]. split.
  - destruct (find_depth_HSI_printed (_species s) s)
      as [He | (depth & hsi & Hd & Hl & Hp)];
      [left; exact He | right; eauto].
  - destruct (res (find_depth_HSI (_species s) s)); [| left; reflexivity].
    destruct (String.eqb_spec (_method s) "CSI"); [| left; reflexivity].
    right. repeat split. assumption.
Qed.

(** ** What a step reads *)

(** X6: a step reads nothing but the stored species, the stored method and
    the depth field. Two components that agree on these three give the same
    result and the same events, whatever their velocities, their other
    fields, their work arrays and the two time steps. *)
Theorem run_one_step_reads_only_depth (dt1 dt2 : Q) (s1 s2 : AquaticHabitat) :
  step_view s1 = step_view s2 ->
  res (run_one_step dt1 s1) = res (run_one_step dt2 s2)
  /\ trace (run_one_step dt1 s1) = trace (run_one_step dt2 s2).
Proof.
  unfold step_view. intros [= Hsp Hm Hd].
  destruct (find_depth_HSI_view (_species s1) s1 s2 Hd) as [Hres Htr].
  rewrite !run_one_step_trace, !run_one_step_rule. cbn zeta.
  rewrite <- Hsp, <- Hm, <- Hres, <- Htr.
  destruct (res (find_depth_HSI (_species s1) s1)); split; reflexivity.
Qed.

Lemma run_one_step_reads_only_depth_witness :
  step_view docstring_component = step_view still_water_component
  /\ res (run_one_step 10 docstring_component)
     = res (run_one_step 1 still_water_component)
  /\ trace (run_one_step 10 docstring_component)
     = trace (run_one_step 1 still_water_component).
Proof.
  assert (step_view docstring_component
          = step_view still_water_component) as Hview
    by reflexivity.
  split; [exact Hview |].
  exact (run_one_step_reads_only_depth 10 1 docstring_component
           still_water_component Hview).
Defined.

(** ** Steps in a row *)

(** X7: steps do not build on each other. A second step from the state the
    first one left gives the outcome of the first; two steps in a row emit
    the events of one step twice when the first returns, and stop with the
    first step's exception, the second never entered, when it raises. *)
Theorem run_one_step_twice (dt1 dt2 : Q) (s : AquaticHabitat) :
  run_one_step dt2 (final (run_one_step dt1 s)) = run_one_step dt1 s
  /\ final (two_steps dt1 dt2 s) = s
  /\ (forall v : PyVal, res (run_one_step dt1 s) = Ok v ->
        res (two_steps dt1 dt2 s) = Ok VNone
        /\ trace (two_steps dt1 dt2 s)
           = trace (run_one_step dt1 s) ++ trace (run_one_step dt1 s))
  /\ (forall e : Exn, res (run_one_step dt1 s) = Raise e ->
        two_steps dt1 dt2 s = run_one_step dt1 s).
Proof.
  pose proof (run_one_step_readonly dt1 s) as Hfin.
  assert (run_one_step dt2 s = run_one_step dt1 s) as Hdt
    by (rewrite !run_one_step_rule; reflexivity).
  split; [rewrite Hfin; exact Hdt |].
  unfold two_steps, bind. cbn zeta. rewrite Hfin, Hdt.
  destruct (run_one_step dt1 s) as [r f tr] eqn:Hrun. cbn in Hfin. subst f.
  destruct r as [v|e]; cbn.
  - assert (v = VNone) as ->.
    { pose proof (run_one_step_rule s dt1) as Hrule. cbn zeta in Hrule.
      rewrite Hrun in Hrule.
      destruct (res (find_depth_HSI (_species s) s)); congruence. }
    split; [reflexivity |]. split; [| discriminate].
    intros v' _. split; reflexivity.
  - split; [reflexivity |]. split; [discriminate |].
    intros e' _. reflexivity.
Qed.

(** ** The levels of the depth curve *)

Lemma call_linear_salmon_levels (d : Q) :
  0 <= d -> d <= 1000 ->
  (call_linear salmon_curve d == 0 <-> d <= 6.6)
  /\ (call_linear salmon_curve d == 1 <-> 13.1 <= d)
  /\ (0 < call_linear salmon_curve d /\ call_linear salmon_curve d < 1
      <-> 6.6 < d /\ d < 13.1).
Proof.
  intros H0 H1.
  destruct (call_linear_salmon_cases d H0 H1) as [[Hd Hy] | [[Hd Hy] | [Hd Hy]]];
    rewrite Hy; rewrite ?rising_piece; repeat split; intros; lra.
Qed.

Lemma find_depth_HSI_salmon_printed (s : AquaticHabitat) (depth : list Q) :
  at_node (_grid s) !! "surface_water__depth"%string = Some depth ->
  Forall in_curve_range depth ->
  find_depth_HSI "salmon" s
  = mkOutcome (Ok VNone) s
      [Call m_find_depth_HSI; Print (VStr "The HSI for depth is:");
       Print (VArr (map (call_linear salmon_curve) depth))].
Proof.
  intros Hdepth Hall. rewrite find_depth_HSI_salmon. unfold depth_HSI_outcome.
  rewrite Hdepth, interp_call_in_range by exact Hall. reflexivity.
Qed.

(** X8: on a grid whose depths all lie in [0, 1000], the salmon HSI of a
    node is 0 exactly when its depth is at most 6.6, is 1 exactly when its
    depth is at least 13.1, and lies strictly between 0 and 1 exactly when
    its depth lies strictly between 6.6 and 13.1. *)
Theorem find_depth_HSI_levels (s : AquaticHabitat) (depth : list Q) :
  at_node (_grid s) !! "surface_water__depth"%string = Some depth ->
  Forall in_curve_range depth ->
  exists hsi : list Q,
    printed (trace (find_depth_HSI "salmon" s))
    = [VStr "The HSI for depth is:"; VArr hsi]
    /\ forall (i : nat) (d : Q), depth !! i = Some d ->
       exists y : Q, hsi !! i = Some y
         /\ (y == 0 <-> d <= 6.6)
         /\ (y == 1 <-> 13.1 <= d)
         /\ (0 < y /\ y < 1 <-> 6.6 < d /\ d < 13.1).
Proof.
  intros Hdepth Hall.
  exists (map (call_linear salmon_curve) depth).
  rewrite find_depth_HSI_salmon_printed with (depth := depth) by assumption.
  split; [reflexivity |].
  intros i d Hi. exists (call_linear salmon_curve d).
  rewrite lookup_map, Hi. split; [reflexivity |].
  rewrite Forall_forall in Hall.
  destruct (Hall d) as [H0 H1]; [eapply list_elem_of_lookup_2; eauto |].
  apply call_linear_salmon_levels; assumption.
Qed.

Lemma find_depth_HSI_levels_witness :
  at_node (_grid riffle_pool_component) !! "surface_water__depth"%string
  = Some [7.5; 12.87]
  /\ Forall in_curve_range [7.5; 12.87]
  /\ exists hsi : list Q,
    printed (trace (find_depth_HSI "salmon" riffle_pool_component))
    = [VStr "The HSI for depth is:"; VArr hsi]
    /\ forall (i : nat) (d : Q), [7.5; 12.87] !! i = Some d ->
       exists y : Q, hsi !! i = Some y
         /\ (y == 0 <-> d <= 6.6)
         /\ (y == 1 <-> 13.1 <= d)
         /\ (0 < y /\ y < 1 <-> 6.6 < d /\ d < 13.1).
Proof.
  assert (Forall in_curve_range [7.5; 12.87]) as Hall
    by (repeat constructor; vm_compute; discriminate).
  split; [reflexivity | split; [exact Hall |]].
  apply (find_depth_HSI_levels riffle_pool_component [7.5; 12.87]);
    [reflexivity | exact Hall].
Defined.

(** ** The velocity routine on a well-formed grid *)

(** X10: on a well-formed grid [find_velocity_HSI] never raises, for any
    species: it returns [None], leaves the state as it was and prints
    exactly one value, which is the message ['species not found'] exactly
    when the species is not ['salmon'], and otherwise an array with one
    entry per node. *)
Theorem find_velocity_HSI_total (species : string) (s : AquaticHabitat) :
  wf_grid (_grid s) = true ->
  res (find_velocity_HSI species s) = Ok VNone
  /\ final (find_velocity_HSI species s) = s
  /\ exists v : PyVal,
       printed (trace (find_velocity_HSI species s)) = [v]
       /\ (species <> "salmon"%string <-> v = VStr "species not found")
       /\ (species = "salmon"%string ->
           exists hsi : list Q,
             v = VArr hsi /\ length hsi = number_of_nodes (_grid s)).
Proof.
  intros Hwf.
  destruct (wf_grid_inputs _ Hwf) as (h & v & Hh & Hv & Hlh & Hlv).
  destruct (String.eqb_spec species "salmon") as [-> | Hne].
  - rewrite (find_velocity_HSI_salmon s h v) by congruence.
    split; [reflexivity |]. split; [reflexivity |].
    exists (VArr (zip_with Qmult v h)).
    split; [reflexivity |]. split.
    + split; [intros H; exfalso; apply H; reflexivity | discriminate].
    + intros _. eexists. split; [reflexivity |].
      rewrite length_zip_with. lia.
  - rewrite (find_velocity_HSI_other s species h v) by assumption.
    split; [reflexivity |]. split; [reflexivity |].
    exists (VStr "species not found").
    split; [reflexivity |]. split.
    + split; [reflexivity | intros _; exact Hne].
    + intros H. contradiction.
Qed.

Lemma find_velocity_HSI_total_witness :
  wf_grid (_grid riffle_pool_component) = true
  /\ res (find_velocity_HSI "trout" riffle_pool_component) = Ok VNone
  /\ final (find_velocity_HSI "trout" riffle_pool_component) = riffle_pool_component
  /\ exists v : PyVal,
       printed (trace (find_velocity_HSI "trout" riffle_pool_component)) = [v]
       /\ ("trout"%string <> "salmon"%string <-> v = VStr "species not found")
       /\ ("trout"%string = "salmon"%string ->
           exists hsi : list Q,
             v = VArr hsi
             /\ length hsi = number_of_nodes (_grid riffle_pool_component)).
Proof.
  split; [reflexivity |].
  apply (find_velocity_HSI_total "trout" riffle_pool_component). reflexivity.
Defined.

(** ** A component as constructed *)

Lemma Component_init_ok (g : Grid) (depth velocity : list Q) :
  at_node g !! "surface_water__depth"%string = Some depth ->
  at_node g !! "surface_water__velocity"%string = Some velocity ->
  Component_init g = Ok g.
Proof.
  intros Hd Hv. unfold Component_init, required_fields.
  cbn [filter list_filter]. rewrite !decide_False by congruence. reflexivity.
Qed.


(** The components of the examples that hold both required fields are the
    ones the constructor returns. *)
Lemma constructed_examples :
  __init__ docstring_grid Omitted Omitted = Ok docstring_component
  /\ __init__ riffle_pool_grid Omitted Omitted = Ok riffle_pool_component
  /\ __init__ off_curve_grid (Given "salmon"%string) (Given "CSI"%string)
     = Ok off_curve_component.
Proof. repeat split. Qed.

(** X11: the call of the class docstring. On a grid that holds both
    required fields, with depths all in [0, 1000], [__init__] with the
    default species and any method returns a component that holds this
    grid, and a step of it returns without raising: it prints the header
    and one array with an entry per depth, then the message of [find_CSI]
    exactly when the method given was ['CSI']; with the method left out the
    step never enters [find_CSI]. *)
Theorem constructed_component_step
    (g : Grid) (method : Arg string) (dt : Q) (depth velocity : list Q) :
  at_node g !! "surface_water__depth"%string = Some depth ->
  at_node g !! "surface_water__velocity"%string = Some velocity ->
  Forall in_curve_range depth ->
  exists (c : AquaticHabitat) (hsi : list Q),
    __init__ g Omitted method = Ok c
    /\ _grid c = g
    /\ run_one_step dt c
       = mkOutcome (Ok VNone) c
           ([Call m_run_one_step; Call m_find_depth_HSI;
             Print (VStr "The HSI for depth is:"); Print (VArr hsi)]
            ++ (if String.eqb (arg_or "HSI"%string method) "CSI"
                then CSI_events else []))
    /\ length hsi = length depth
    /\ (method = Omitted -> calls m_find_CSI (trace (run_one_step dt c)) = false).
Proof.
  intros Hdepth Hvel Hall.
  exists (component_on g "salmon" (arg_or "HSI"%string method)),
         (map (call_linear salmon_curve) depth).
  assert (run_one_step dt (component_on g "salmon" (arg_or "HSI"%string method))
          = mkOutcome (Ok VNone) (component_on g "salmon" (arg_or "HSI"%string method))
              ([Call m_run_one_step; Call m_find_depth_HSI;
                Print (VStr "The HSI for depth is:");
                Print (VArr (map (call_linear salmon_curve) depth))]
               ++ (if String.eqb (arg_or "HSI"%string method) "CSI"
                   then CSI_events else []))) as Hrun.
  { rewrite run_one_step_rule.
    change (_species (component_on g "salmon" (arg_or "HSI"%string method)))
      with "salmon"%string.
    rewrite (find_depth_HSI_salmon_printed _ depth) by assumption.
    reflexivity. }
  split; [| split; [reflexivity | split; [exact Hrun | split; [apply length_map |]]]].
  - unfold __init__. rewrite (Component_init_ok g depth velocity) by assumption.
    reflexivity.
  - intros ->. rewrite Hrun. reflexivity.
Qed.

Lemma constructed_component_step_witness :
  at_node docstring_grid !! "surface_water__depth"%string = Some [12.87; 12.87]
  /\ at_node docstring_grid !! "surface_water__velocity"%string = Some [2.57; 2.57]
  /\ Forall in_curve_range [12.87; 12.87]
  /\ exists (c : AquaticHabitat) (hsi : list Q),
    __init__ docstring_grid Omitted (Given "CSI"%string) = Ok c
    /\ _grid c = docstring_grid
    /\ run_one_step 10 c
       = mkOutcome (Ok VNone) c
           ([Call m_run_one_step; Call m_find_depth_HSI;
             Print (VStr "The HSI for depth is:"); Print (VArr hsi)]
            ++ (if String.eqb (arg_or "HSI"%string (Given "CSI"%string)) "CSI"
                then CSI_events else []))
    /\ length hsi = length [12.87; 12.87]
    /\ (Given "CSI"%string = Omitted ->
        calls m_find_CSI (trace (run_one_step 10 c)) = false).
Proof.
  assert (Forall in_curve_range [12.87; 12.87]) as Hall
    by (repeat constructor; vm_compute; discriminate).
  split; [reflexivity | split; [reflexivity | split; [exact Hall |]]].
  apply (constructed_component_step docstring_grid (Given "CSI"%string) 10
           [12.87; 12.87] [2.57; 2.57]);
    [reflexivity | reflexivity | exact Hall].
Defined.

